(** * Atlas-Web: the application state machine of [src/App.tsx]

    A shallow embedding of the [App] component of the flight-route planning
    UI: its state cells, the event handlers that update them, the options the
    rendered controls offer, and the [MapUpdater] effect that drives the map
    widget.

    Conventions.
    - A JavaScript [number] is a rational ([Q]): every finite double is one.
      [NaN] and the infinities are outside the model.
    - A plain object (the two density tables, the route mapping) is a finite
      map of its own properties ([gmap]); reading a property falls back to
      [Object.prototype], as it does in JavaScript.
    - A handler is the list of calls its body makes, computed from the values
      its closure captured at render time; [dispatch] runs the calls against
      the state, React-style: every queued update is applied in order, an
      updater function to the latest state, a plain value as it is. *)

From Stdlib Require Import QArith Qminmax.
From stdpp Require Import gmap strings list fin_maps.

Open Scope string_scope.

(** ** The fragment of JavaScript the component relies on *)

Module Js.

(** What a property read can yield here: a number stored in a table,
    [undefined], or an object of the runtime (a method of
    [Object.prototype], or that prototype itself), named by the property
    it was reached through. *)
Inductive value : Type :=
| Undefined
| Num (n : Q)
| Builtin (property : string).

(** [ToBoolean]: [undefined] and [0] are falsy, objects are truthy. *)
Definition truthy (v : value) : bool :=
  match v with
  | Undefined => false
  | Num n => negb (Qeq_bool n 0)
  | Builtin _ => true
  end.

(** [a || b] *)
Definition or (a b : value) : value := if truthy a then a else b.

(** The property names every ordinary object inherits from
    [Object.prototype]. *)
Definition ObjectPrototype : list string :=
  [ "constructor"; "hasOwnProperty"; "isPrototypeOf";
    "propertyIsEnumerable"; "toLocaleString"; "toString"; "valueOf";
    "__proto__"; "__defineGetter__"; "__defineSetter__";
    "__lookupGetter__"; "__lookupSetter__" ].

(** [o[key]] on an object literal whose own properties are numbers: the own
    property when there is one, else the inherited one, else
    [undefined]. *)
Definition get (o : gmap string Q) (key : string) : value :=
  match o !! key with
  | Some n => Num n
  | None => if bool_decide (key ∈ ObjectPrototype) then Builtin key else Undefined
  end.

(** [ToBoolean] on a string: only the empty string is falsy. *)
Definition nonempty (s : string) : bool := negb (bool_decide (s = "")).

(** [!s] on a string *)
Definition not (s : string) : bool := negb (nonempty s).

End Js.

(** ** Leaflet, as far as the component uses it

    Leaflet is an external collaborator whose sources are not at hand. The
    definitions of this module follow the map-synchroniser contract and
    the library's documented behaviour. *)

Module L.

Record LatLng : Type := { lat : Q; lng : Q }.

(** A [[lat, lon]] pair, the form routes store their endpoints in. *)
Definition LatLngTuple : Type := (Q * Q)%type.

(** [L.latLng(tuple)] *)
Definition latLng (t : LatLngTuple) : LatLng := {| lat := fst t; lng := snd t |}.

Inductive LatLngBounds : Type :=
| Empty
| Box (southWest northEast : LatLng).

(** Modelled from the spec: [bounds.extend(point)] of Leaflet, which is
    not part of the sources at hand. The box grows just enough to hold the
    point: each south-west coordinate becomes the smaller, each north-east
    coordinate the larger of the two. *)
Definition extend (b : LatLngBounds) (p : LatLng) : LatLngBounds :=
  match b with
  | Empty => Box p p
  | Box sw ne =>
      Box {| lat := Qmin (lat p) (lat sw); lng := Qmin (lng p) (lng sw) |}
          {| lat := Qmax (lat p) (lat ne); lng := Qmax (lng p) (lng ne) |}
  end.

(** Modelled from the spec: [L.latLngBounds(points)] of Leaflet, which is
    not part of the sources at hand: the smallest box containing the
    points, built by extending an empty box by each point in turn. *)
Definition latLngBounds (points : list LatLngTuple) : LatLngBounds :=
  fold_left (fun b t => extend b (latLng t)) points Empty.

(** Modelled from the spec: [bounds.extend(obj)] of Leaflet where [obj] may
    be [undefined]: on a falsy argument Leaflet returns the box as it
    is. *)
Definition extendWith (b : LatLngBounds) (o : option LatLngTuple) : LatLngBounds :=
  match o with
  | Some t => extend b (latLng t)
  | None => b
  end.

(** Modelled from the spec: [L.latLngBounds(points)] of Leaflet on an array
    whose elements may be [undefined]. With no defined point the box stays
    [Empty], which Leaflet calls invalid and [fitBounds] refuses by
    throwing. *)
Definition latLngBoundsOf (points : list (option LatLngTuple)) : LatLngBounds :=
  fold_left extendWith points Empty.

(** The point lies within the box, borders included. *)
Definition contains (b : LatLngBounds) (p : LatLng) : Prop :=
  match b with
  | Empty => False
  | Box sw ne =>
      (lat sw <= lat p)%Q /\ (lat p <= lat ne)%Q /\
      (lng sw <= lng p)%Q /\ (lng p <= lng ne)%Q
  end.

(** The first box lies within the second. *)
Definition within (inner outer : LatLngBounds) : Prop :=
  match inner, outer with
  | Box sw ne, Box sw' ne' =>
      (lat sw' <= lat sw)%Q /\ (lat ne <= lat ne')%Q /\
      (lng sw' <= lng sw)%Q /\ (lng ne <= lng ne')%Q
  | Empty, _ => True
  | Box _ _, Empty => False
  end.

(** The options object of [fitBounds]; the component only sets
    [padding], a pair of pixel counts, which Leaflet documents as setting
    the top-left and the bottom-right padding to the same value. *)
Record FitBoundsOptions : Type := { padding : Q * Q }.

Definition paddingTopLeft (o : FitBoundsOptions) : Q * Q := padding o.
Definition paddingBottomRight (o : FitBoundsOptions) : Q * Q := padding o.

(** The imperative calls the component makes on the map. *)
Inductive MapCall : Type :=
| fitBounds (bounds : LatLngBounds) (options : FitBoundsOptions).

(** The layer classes the drawing plugin can hand over, with the
    coordinates [getLatLngs] returns for the path classes. [Rectangle]
    extends [Polygon], which extends [Polyline]; [Circle] extends
    [CircleMarker]. *)
Inductive Class : Type :=
| Marker | CircleMarker | Circle | Polyline | Polygon | Rectangle.

Inductive Layer : Type :=
| marker (position : LatLng)
| circleMarker (center : LatLng)
| circle (center : LatLng) (radius : Q)
| polyline (latlngs : list LatLng)
| polygon (latlngs : list (list LatLng))
| rectangle (latlngs : list (list LatLng)).

Definition classOf (layer : Layer) : Class :=
  match layer with
  | marker _ => Marker
  | circleMarker _ => CircleMarker
  | circle _ _ => Circle
  | polyline _ => Polyline
  | polygon _ => Polygon
  | rectangle _ => Rectangle
  end.

(** [extends c d]: class [c] is [d] or inherits from it. *)
Definition extends (c d : Class) : bool :=
  match c, d with
  | Marker, Marker | CircleMarker, CircleMarker | Circle, Circle
  | Circle, CircleMarker
  | Polyline, Polyline | Polygon, Polygon | Polygon, Polyline
  | Rectangle, Rectangle | Rectangle, Polygon | Rectangle, Polyline => true
  | _, _ => false
  end.

(** [layer instanceof C] *)
Definition instanceof (layer : Layer) (c : Class) : bool := extends (classOf layer) c.

(** [layer.getLatLngs()] of a polygon or rectangle: its rings. *)
Definition getLatLngs (layer : Layer) : list (list LatLng) :=
  match layer with
  | polygon rings | rectangle rings => rings
  | polyline path => [path]
  | _ => []
  end.

End L.

(** ** The state of [App] *)

(** Modelled from the spec: the [Route] type, whose declaration is not
    part of the sources at hand. Following the data model, a route is
    [{ name, source: [lat, lon], destination: [lat, lon] }]. *)
Record Route : Type :=
  { name : string; source : L.LatLngTuple; destination : L.LatLngTuple }.

Inductive MapLayer : Type := satellite | streets | hybrid.

Record FlightParams : Type :=
  { altitude : Q; velocity : Q; geography : Q; contingency : Q }.

Record CertSettings : Type :=
  { sail : string;
    hasParachute : bool;
    densitySuppression : Js.value;
    relaxation : Q }.

Record TrajectorySettings : Type :=
  { distanceFwd : Q;
    distanceBack : Q;
    minTurningRadius : Q;
    maxWaypointDistance : Q;
    maxLateralDrift : Q }.

(** One field per [useState] cell of [App], plus the mapping the
    [useRoutes] hook holds: its own entries, from route names to routes.
    Reading [routes[name]] is [readRoute] below. *)
Record AppState : Type :=
  { selectedRoute : string;
    showAddRoute : bool;
    isAnalyzing : bool;
    routes : gmap string Route;
    mapLayer : MapLayer;
    flightParams : FlightParams;
    certSettings : CertSettings;
    trajectorySettings : TrajectorySettings }.

(** The state of the first render. *)
Definition initialState : AppState :=
  {| selectedRoute := "";
     showAddRoute := false;
     isAnalyzing := false;
     routes := ∅;
     mapLayer := satellite;
     flightParams :=
       {| altitude := 2500; velocity := 55; geography := 125; contingency := 300 |};
     certSettings :=
       {| sail := "SAIL 2"; hasParachute := false;
          densitySuppression := Js.Num 0; relaxation := 750 |};
     trajectorySettings :=
       {| distanceFwd := 200; distanceBack := 150; minTurningRadius := 50;
          maxWaypointDistance := 500; maxLateralDrift := 30 |} |}.

(** *** Record updates, the [{...prev, field: value}] of the source *)

Definition with_sail (v : string) (c : CertSettings) : CertSettings :=
  {| sail := v; hasParachute := hasParachute c;
     densitySuppression := densitySuppression c; relaxation := relaxation c |}.

Definition with_hasParachute (v : bool) (c : CertSettings) : CertSettings :=
  {| sail := sail c; hasParachute := v;
     densitySuppression := densitySuppression c; relaxation := relaxation c |}.

Definition with_densitySuppression (v : Js.value) (c : CertSettings) : CertSettings :=
  {| sail := sail c; hasParachute := hasParachute c;
     densitySuppression := v; relaxation := relaxation c |}.

Definition with_relaxation (v : Q) (c : CertSettings) : CertSettings :=
  {| sail := sail c; hasParachute := hasParachute c;
     densitySuppression := densitySuppression c; relaxation := v |}.

Inductive FlightField : Type := Altitude | Velocity | Geography | Contingency.

Definition with_flightField (f : FlightField) (v : Q) (p : FlightParams) : FlightParams :=
  match f with
  | Altitude =>
      {| altitude := v; velocity := velocity p;
         geography := geography p; contingency := contingency p |}
  | Velocity =>
      {| altitude := altitude p; velocity := v;
         geography := geography p; contingency := contingency p |}
  | Geography =>
      {| altitude := altitude p; velocity := velocity p;
         geography := v; contingency := contingency p |}
  | Contingency =>
      {| altitude := altitude p; velocity := velocity p;
         geography := geography p; contingency := v |}
  end.

Inductive TrajectoryField : Type :=
| DistanceFwd | DistanceBack | MinTurningRadius | MaxWaypointDistance | MaxLateralDrift.

Definition with_trajectoryField (f : TrajectoryField) (v : Q) (t : TrajectorySettings)
  : TrajectorySettings :=
  {| distanceFwd := match f with DistanceFwd => v | _ => distanceFwd t end;
     distanceBack := match f with DistanceBack => v | _ => distanceBack t end;
     minTurningRadius := match f with MinTurningRadius => v | _ => minTurningRadius t end;
     maxWaypointDistance :=
       match f with MaxWaypointDistance => v | _ => maxWaypointDistance t end;
     maxLateralDrift := match f with MaxLateralDrift => v | _ => maxLateralDrift t end |}.

(** ** Calls and their effect on the state *)

(** React's [SetStateAction]: a new value, or a function of the latest
    state. *)
Inductive SetStateAction (S : Type) : Type :=
| Value (v : S)
| Updater (f : S -> S).
Arguments Value {S} v.
Arguments Updater {S} f.

Definition resolve {S : Type} (a : SetStateAction S) (latest : S) : S :=
  match a with
  | Value v => v
  | Updater f => f latest
  end.

(** What a handler body can call: the state setters, the two operations of
    the route store, and the two channels to the outside. *)
Inductive Call : Type :=
| setSelectedRoute (a : SetStateAction string)
| setShowAddRoute (a : SetStateAction bool)
| setIsAnalyzing (a : SetStateAction bool)
| setMapLayer (a : SetStateAction MapLayer)
| setFlightParams (a : SetStateAction FlightParams)
| setCertSettings (a : SetStateAction CertSettings)
| setTrajectorySettings (a : SetStateAction TrajectorySettings)
| addRoute (name : string) (source destination : L.LatLngTuple)
| deleteRoute (name : string)
| alert (message : string)
| console_log (message : string) (data : list (list L.LatLng)).

(** What reaches the user or the console. *)
Inductive Output : Type :=
| Alerted (message : string)
| Logged (message : string) (data : list (list L.LatLng)).

(** Modelled from the spec: [addRoute] of the [useRoutes] hook
    ([./hooks/useRoutes]), which is not part of the sources at hand.
    Following the route-store contract, [add(name, source, destination)]
    inserts or overwrites the entry for [name]. *)
Definition store_add (n : string) (src dst : L.LatLngTuple) (m : gmap string Route)
  : gmap string Route :=
  <[ n := {| name := n; source := src; destination := dst |} ]> m.

(** Modelled from the spec: [deleteRoute] of the same hook. Following the
    route-store contract, [delete(name)] removes the entry if present and
    does nothing otherwise. *)
Definition store_delete (n : string) (m : gmap string Route) : gmap string Route :=
  delete n m.

(** One call against the state. *)
Definition perform (c : Call) (s : AppState) : AppState * list Output :=
  match c with
  | setSelectedRoute a =>
      ({| selectedRoute := resolve a (selectedRoute s);
          showAddRoute := showAddRoute s; isAnalyzing := isAnalyzing s;
          routes := routes s; mapLayer := mapLayer s;
          flightParams := flightParams s; certSettings := certSettings s;
          trajectorySettings := trajectorySettings s |}, [])
  | setShowAddRoute a =>
      ({| selectedRoute := selectedRoute s;
          showAddRoute := resolve a (showAddRoute s); isAnalyzing := isAnalyzing s;
          routes := routes s; mapLayer := mapLayer s;
          flightParams := flightParams s; certSettings := certSettings s;
          trajectorySettings := trajectorySettings s |}, [])
  | setIsAnalyzing a =>
      ({| selectedRoute := selectedRoute s;
          showAddRoute := showAddRoute s; isAnalyzing := resolve a (isAnalyzing s);
          routes := routes s; mapLayer := mapLayer s;
          flightParams := flightParams s; certSettings := certSettings s;
          trajectorySettings := trajectorySettings s |}, [])
  | setMapLayer a =>
      ({| selectedRoute := selectedRoute s;
          showAddRoute := showAddRoute s; isAnalyzing := isAnalyzing s;
          routes := routes s; mapLayer := resolve a (mapLayer s);
          flightParams := flightParams s; certSettings := certSettings s;
          trajectorySettings := trajectorySettings s |}, [])
  | setFlightParams a =>
      ({| selectedRoute := selectedRoute s;
          showAddRoute := showAddRoute s; isAnalyzing := isAnalyzing s;
          routes := routes s; mapLayer := mapLayer s;
          flightParams := resolve a (flightParams s); certSettings := certSettings s;
          trajectorySettings := trajectorySettings s |}, [])
  | setCertSettings a =>
      ({| selectedRoute := selectedRoute s;
          showAddRoute := showAddRoute s; isAnalyzing := isAnalyzing s;
          routes := routes s; mapLayer := mapLayer s;
          flightParams := flightParams s;
          certSettings := resolve a (certSettings s);
          trajectorySettings := trajectorySettings s |}, [])
  | setTrajectorySettings a =>
      ({| selectedRoute := selectedRoute s;
          showAddRoute := showAddRoute s; isAnalyzing := isAnalyzing s;
          routes := routes s; mapLayer := mapLayer s;
          flightParams := flightParams s; certSettings := certSettings s;
          trajectorySettings := resolve a (trajectorySettings s) |}, [])
  | addRoute n src dst =>
      ({| selectedRoute := selectedRoute s;
          showAddRoute := showAddRoute s; isAnalyzing := isAnalyzing s;
          routes := store_add n src dst (routes s); mapLayer := mapLayer s;
          flightParams := flightParams s; certSettings := certSettings s;
          trajectorySettings := trajectorySettings s |}, [])
  | deleteRoute n =>
      ({| selectedRoute := selectedRoute s;
          showAddRoute := showAddRoute s; isAnalyzing := isAnalyzing s;
          routes := store_delete n (routes s); mapLayer := mapLayer s;
          flightParams := flightParams s; certSettings := certSettings s;
          trajectorySettings := trajectorySettings s |}, [])
  | alert message => (s, [Alerted message])
  | console_log message data => (s, [Logged message data])
  end.

(** The calls of one handler run, in order. *)
Fixpoint dispatch (calls : list Call) (s : AppState) : AppState * list Output :=
  match calls with
  | [] => (s, [])
  | c :: rest =>
      let '(s1, out1) := perform c s in
      let '(s2, out2) := dispatch rest s1 in
      (s2, (out1 ++ out2)%list)
  end.

(** ** The handlers of [App]

    A handler that reads a state cell takes the render it was created in
    ([r]) and reads the cell there, as the closure does. *)

(** The two tables of [updateDensitySuppression]. *)
Definition withoutParachute : gmap string Q :=
  list_to_map [("SAIL 2", 0%Q); ("SAIL 3", 5%Q); ("SAIL 4", 50%Q); ("SAIL 6", 5000%Q)].

Definition withParachute : gmap string Q :=
  list_to_map [("SAIL 2", 5%Q); ("SAIL 3", 50%Q); ("SAIL 4", 500%Q)].

(** The initialiser of [const density]. *)
Definition density (sail : string) (hasParachute : bool) : Js.value :=
  if hasParachute
  then Js.or (Js.get withParachute sail) (Js.Num 0)
  else Js.or (Js.get withoutParachute sail) (Js.Num 0).

Definition updateDensitySuppression (sail : string) (hasParachute : bool) : list Call :=
  [ setCertSettings (Updater (with_densitySuppression (density sail hasParachute))) ].

Definition handleAddRoute (name : string) (source destination : L.LatLngTuple) : list Call :=
  [ addRoute name source destination;
    setShowAddRoute (Value false);
    setSelectedRoute (Value name) ].

Definition handleDeleteRoute (r : AppState) : list Call :=
  if Js.nonempty (selectedRoute r)
  then [ deleteRoute (selectedRoute r); setSelectedRoute (Value "") ]
  else [].

Definition handleAnalyzePopulation (r : AppState) : list Call :=
  if Js.not (selectedRoute r)
  then [ alert "Please select a route first" ]
  else [ setIsAnalyzing (Value true) ].

Definition handleDrawComplete (layer : L.Layer) : list Call :=
  ((if L.instanceof layer L.Polygon || L.instanceof layer L.Rectangle
    then [ console_log "Drawn shape coordinates:" (L.getLatLngs layer) ]
    else [])
   ++ [ setIsAnalyzing (Value false) ])%list.

(** The [onChange] of the SAIL select. *)
Definition onSailChange (r : AppState) (newSail : string) : list Call :=
  setCertSettings (Updater (with_sail newSail))
  :: updateDensitySuppression newSail (hasParachute (certSettings r)).

(** The [onChange] of the parachute checkbox. *)
Definition onParachuteChange (r : AppState) (checked : bool) : list Call :=
  setCertSettings (Updater (with_hasParachute checked))
  :: updateDensitySuppression (sail (certSettings r)) checked.

(** The [onChange] of the controlled-area input. *)
Definition onRelaxationChange (r : AppState) (v : Q) : list Call :=
  [ setCertSettings (Value (with_relaxation v (certSettings r))) ].

(** ** What the user can do

    One constructor per control of the rendered page. A numeric input
    carries [Number(e.target.value)]. *)
Inductive Event : Type :=
| RouteSelected (value : string)
| AddRouteClicked
| DeleteClicked
| FlightParamChanged (field : FlightField) (v : Q)
| SailSelected (value : string)
| ParachuteChanged (checked : bool)
| RelaxationChanged (v : Q)
| TrajectoryChanged (field : TrajectoryField) (v : Q)
| AnalyzeClicked
| LayerChanged (layer : MapLayer)
| DrawCompleted (layer : L.Layer)
| ModalClosed
| ModalSubmitted (name : string) (source destination : L.LatLngTuple).

(** The options of the SAIL select in render [r]. *)
Definition sailOptions (r : AppState) : list string :=
  (["SAIL 2"; "SAIL 3"; "SAIL 4"]
   ++ (if negb (hasParachute (certSettings r)) then ["SAIL 6"] else []))%list.

(** Whether render [r] lets the event happen: a select only yields one of
    its options, a checkbox click yields the opposite of what it shows, a
    disabled button is not clicked, and the drawing tools only exist while
    mounted. The children whose sources are absent may call back at any
    time. *)
Definition offered (r : AppState) (e : Event) : bool :=
  match e with
  | RouteSelected v => bool_decide (v = "") || bool_decide (is_Some (routes r !! v))
  | SailSelected v => bool_decide (v ∈ sailOptions r)
  | ParachuteChanged checked => bool_decide (checked = negb (hasParachute (certSettings r)))
  | DeleteClicked | AnalyzeClicked => negb (Js.not (selectedRoute r))
  | DrawCompleted _ => isAnalyzing r
  | _ => true
  end.

(** The handler each control is wired to. *)
Definition handler (r : AppState) (e : Event) : list Call :=
  match e with
  | RouteSelected v => [ setSelectedRoute (Value v) ]
  | AddRouteClicked => [ setShowAddRoute (Value true) ]
  | DeleteClicked => handleDeleteRoute r
  | FlightParamChanged f v =>
      [ setFlightParams (Value (with_flightField f v (flightParams r))) ]
  | SailSelected v => onSailChange r v
  | ParachuteChanged checked => onParachuteChange r checked
  | RelaxationChanged v => onRelaxationChange r v
  | TrajectoryChanged f v =>
      [ setTrajectorySettings (Value (with_trajectoryField f v (trajectorySettings r))) ]
  | AnalyzeClicked => handleAnalyzePopulation r
  | LayerChanged l => [ setMapLayer (Value l) ]
  | DrawCompleted layer => handleDrawComplete layer
  | ModalClosed => [ setShowAddRoute (Value false) ]
  | ModalSubmitted n src dst => handleAddRoute n src dst
  end.

(** The state of the next render. *)
Definition after (e : Event) (s : AppState) : AppState := fst (dispatch (handler s e) s).

Inductive step : AppState -> AppState -> Prop :=
| step_event (s : AppState) (e : Event) : offered s e = true -> step s (after e s).

(** What the user can bring about from the first render. *)
Definition reachable (s : AppState) : Prop := rtc step initialState s.

(** ** The [MapUpdater] effect *)

(** What [routes[name]] yields on the plain object holding the routes: the
    stored route, else the object inherited from [Object.prototype] under
    that name, else [undefined]. *)
Inductive RouteRead : Type :=
| Stored (route : Route)
| Inherited (property : string)
| Missing.

(** [routes[key]] *)
Definition readRoute (routes : gmap string Route) (key : string) : RouteRead :=
  match routes !! key with
  | Some route => Stored route
  | None => if bool_decide (key ∈ Js.ObjectPrototype) then Inherited key else Missing
  end.

(** [route.source] and [route.destination] on what was read: the endpoint
    of a stored route, [undefined] on an inherited object, none of which
    has such a property. ([undefined] itself is never asked: the guards
    come first.) *)
Definition sourceOf (r : RouteRead) : option L.LatLngTuple :=
  match r with
  | Stored route => Some (source route)
  | Inherited _ | Missing => None
  end.

Definition destinationOf (r : RouteRead) : option L.LatLngTuple :=
  match r with
  | Stored route => Some (destination route)
  | Inherited _ | Missing => None
  end.

(** [selectedRoute && routes[selectedRoute]], the guard of the effect and
    of the route overlay: [Missing] stands for a falsy outcome. *)
Definition selectedRead (selectedRoute : string) (routes : gmap string Route) : RouteRead :=
  if Js.nonempty selectedRoute then readRoute routes selectedRoute else Missing.

(** The body of the effect: the calls it makes on the map. *)
Definition MapUpdater (selectedRoute : string) (routes : gmap string Route) : list L.MapCall :=
  match selectedRead selectedRoute routes with
  | Missing => []
  | route =>
      let bounds := L.latLngBoundsOf [sourceOf route; destinationOf route] in
      [ L.fitBounds bounds {| L.padding := (50%Q, 50%Q) |} ]
  end.


(** ** Notions the properties are stated with *)

(** The value the applicable table holds for the pair, 0 when it holds
    none. *)
Definition tableValue (sail : string) (hasParachute : bool) : Q :=
  default 0%Q ((if hasParachute then withParachute else withoutParachute) !! sail).

(** The category is one of the four, and the derived field is the table
    value of the current pair. *)
Definition cert_consistent (c : CertSettings) : Prop :=
  sail c ∈ ["SAIL 2"; "SAIL 3"; "SAIL 4"; "SAIL 6"] /\
  densitySuppression c = Js.Num (tableValue (sail c) (hasParachute c)).

(** The layer is a polygon or a rectangle. *)
Definition isShape (layer : L.Layer) : bool :=
  L.instanceof layer L.Polygon || L.instanceof layer L.Rectangle.

(** *** Sample states and inputs *)


(** A state with one stored route, selected. *)
Definition oneRoute : AppState :=
  fst (dispatch (handleAddRoute "LHR-CDG" (51.47, -0.4543)%Q (49.0097, 2.5479)%Q) initialState).

(** A state in which the drawing tools are mounted. *)
Definition analysing : AppState := after AnalyzeClicked oneRoute.

(** A rectangle as the drawing plugin hands it over: one ring of four
    corners. *)
Definition drawnRectangle : L.Layer :=
  L.rectangle [[ {| L.lat := 51; L.lng := -1 |}; {| L.lat := 52; L.lng := -1 |};
                 {| L.lat := 52; L.lng := 0 |}; {| L.lat := 51; L.lng := 0 |} ]].

(** ** What the page renders on the map *)

(** A [<TileLayer url=... attribution=... />] element. *)
Record TileLayer : Type := { url : string; attribution : string }.

#[global] Instance MapLayer_eq_dec : EqDecision MapLayer.
Proof. solve_decision. Defined.

#[global] Instance FlightField_eq_dec : EqDecision FlightField.
Proof. solve_decision. Defined.

#[global] Instance TrajectoryField_eq_dec : EqDecision TrajectoryField.
Proof. solve_decision. Defined.

(** The three [{mapLayer === ... && <TileLayer ... />}] children of the map
    container, in the order of the source. *)
Definition tileLayers (mapLayer : MapLayer) : list TileLayer :=
  ((if bool_decide (mapLayer = satellite)
    then [ {| url := "https://mt1.google.com/vt/lyrs=s&x={x}&y={y}&z={z}";
              attribution := "Google Satellite" |} ]
    else [])
   ++ (if bool_decide (mapLayer = streets)
       then [ {| url := "https://mt1.google.com/vt/lyrs=m&x={x}&y={y}&z={z}";
                 attribution := "Google Streets" |} ]
       else [])
   ++ (if bool_decide (mapLayer = hybrid)
       then [ {| url := "https://mt1.google.com/vt/lyrs=y&x={x}&y={y}&z={z}";
                 attribution := "Google Hybrid" |} ]
       else []))%list.

(** What the page draws for the selected route: the two markers, named by
    the title of their popup, and the dashed line between them. *)
Inductive Overlay : Type :=
| ZoomAwareMarker (position : L.LatLngTuple) (title : string)
| Polyline (positions : list L.LatLngTuple).

(** The outcome of evaluating a piece of the page: its elements, or the
    error thrown on the way. *)
Inductive Render : Type :=
| Rendered (elements : list Overlay)
| Throws (error : string).

(** The [{selectedRoute && routes[selectedRoute] && (<>...</>)}] child of
    the map container. On an inherited object the guard passes and the
    popup's [routes[selectedRoute].source[0]] reads an index of
    [undefined], which throws. *)
Definition routeOverlay (selectedRoute : string) (routes : gmap string Route) : Render :=
  match selectedRead selectedRoute routes with
  | Stored route =>
      Rendered
        [ ZoomAwareMarker (source route) "Take-off Location";
          ZoomAwareMarker (destination route) "Landing Location";
          Polyline [source route; destination route] ]
  | Inherited _ => Throws "TypeError"
  | Missing => Rendered []
  end.

(** The page treats [route] as the selected one: the selection is a
    non-empty name, the empty string standing for no selection, and the
    store resolves it to [route]. *)
Definition routeSelected (s : AppState) (route : Route) : Prop :=
  selectedRoute s <> "" /\ routes s !! selectedRoute s = Some route.

(** Reading one field of the flight parameters, and of the trajectory
    settings. *)
Definition flightField (f : FlightField) (p : FlightParams) : Q :=
  match f with
  | Altitude => altitude p
  | Velocity => velocity p
  | Geography => geography p
  | Contingency => contingency p
  end.

Definition trajectoryField (f : TrajectoryField) (t : TrajectorySettings) : Q :=
  match f with
  | DistanceFwd => distanceFwd t
  | DistanceBack => distanceBack t
  | MinTurningRadius => minTurningRadius t
  | MaxWaypointDistance => maxWaypointDistance t
  | MaxLateralDrift => maxLateralDrift t
  end.

(** The pair the SAIL select is meant to rule out. *)
Definition excluded (c : CertSettings) : Prop :=
  sail c = "SAIL 6" /\ hasParachute c = true.

(** What a handler run shows to the user. *)
Definition isAlert (o : Output) : bool :=
  match o with
  | Alerted _ => true
  | Logged _ _ => false
  end.

(** The selection is empty or names a stored route. *)
Definition selection_resolves (s : AppState) : Prop :=
  selectedRoute s = "" \/ is_Some (routes s !! selectedRoute s).

(** The controls wired to the selection or to the route store. *)
Definition touchesRoutes (e : Event) : bool :=
  match e with
  | RouteSelected _ | DeleteClicked | ModalSubmitted _ _ _ => true
  | _ => false
  end.

(** * Properties *)

(** ** Running a handler *)

Lemma dispatch_app (xs ys : list Call) (s : AppState) :
  dispatch (xs ++ ys)%list s =
  (fst (dispatch ys (fst (dispatch xs s))),
   (snd (dispatch xs s) ++ snd (dispatch ys (fst (dispatch xs s))))%list).
Proof.
  revert s. induction xs as [|c xs IH]; intros s; simpl.
  - by destruct (dispatch ys s).
  - destruct (perform c s) as [s1 out1]. rewrite IH.
    destruct (dispatch xs s1) as [s2 out2]. simpl.
    by rewrite app_assoc.
Qed.

(** ** Reading the selected route *)

Lemma nonempty_true (v : string) : Js.nonempty v = true <-> v <> "".
Proof.
  unfold Js.nonempty. rewrite negb_true_iff. apply bool_decide_eq_false.
Qed.

Lemma nonempty_false (v : string) : Js.nonempty v = false <-> v = "".
Proof.
  unfold Js.nonempty. rewrite negb_false_iff. apply bool_decide_eq_true.
Qed.

Lemma selectedRead_empty (rs : gmap string Route) : selectedRead "" rs = Missing.
Proof. reflexivity. Qed.

(** A non-empty name with an entry of its own reads as that entry. *)
Lemma selectedRead_stored (sel : string) (rs : gmap string Route) (route : Route) :
  sel <> "" -> rs !! sel = Some route -> selectedRead sel rs = Stored route.
Proof.
  intros Hsel Hroute. unfold selectedRead, readRoute.
  by rewrite (proj2 (nonempty_true sel) Hsel), Hroute.
Qed.



(** ** The density tables *)



Lemma density_SAIL4_without_parachute : density "SAIL 4" false = Js.Num 50.
Proof. reflexivity. Qed.

Lemma density_SAIL3_with_parachute : density "SAIL 3" true = Js.Num 50.
Proof. reflexivity. Qed.



(** On a property name of [Object.prototype] the derivation yields the
    inherited object, whichever table is read. *)
Lemma density_inherited (sail : string) (hasParachute : bool) :
  sail ∈ Js.ObjectPrototype -> density sail hasParachute = Js.Builtin sail.
Proof.
  intros Hin. unfold Js.ObjectPrototype in Hin.
  repeat (apply elem_of_cons in Hin as [->|Hin]);
    [destruct hasParachute; reflexivity ..|].
  by apply elem_of_nil in Hin.
Qed.

(** On the four categories the derivation is the table value, 0 for
    ("SAIL 6", with parachute). *)
Lemma density_category (sail : string) (hasParachute : bool) :
  sail ∈ ["SAIL 2"; "SAIL 3"; "SAIL 4"; "SAIL 6"] ->
  density sail hasParachute = Js.Num (tableValue sail hasParachute).
Proof.
  intros Hin. repeat (apply elem_of_cons in Hin as [->|Hin]);
    [destruct hasParachute; reflexivity ..|].
  by apply elem_of_nil in Hin.
Qed.

(** What the code does at a category that names an inherited property.
    "constructor" is a key of neither table, yet
    [updateDensitySuppression "constructor" false] does not store 0: the
    read [withoutParachute["constructor"]] finds the property inherited
    from [Object.prototype], which is truthy, so [|| 0] keeps it and the
    object ends up in [densitySuppression]. *)
Theorem updateDensitySuppression_inherited_name (s : AppState) :
  withoutParachute !! "constructor" = None /\
  withParachute !! "constructor" = None /\
  densitySuppression
    (certSettings (fst (dispatch (updateDensitySuppression "constructor" false) s)))
  = Js.Builtin "constructor" /\
  densitySuppression
    (certSettings (fst (dispatch (updateDensitySuppression "constructor" false) s)))
  <> Js.Num 0.
Proof. repeat split; try reflexivity. discriminate. Qed.




(** ** Reaching states *)

Lemma reachable_initial : reachable initialState.
Proof. apply rtc_refl. Qed.

Lemma reachable_after (s : AppState) (e : Event) :
  reachable s -> offered s e = true -> reachable (after e s).
Proof. intros Hreach Hoff. eapply rtc_r; [exact Hreach|]. by apply step_event. Qed.

(** Replays a given sequence of events from the first render. *)
Ltac replay :=
  repeat (apply reachable_after; [|reflexivity]); apply reachable_initial.

(** ** The certification settings along the user's steps *)

(** What each event does to the certification settings. *)
Lemma after_certSettings (e : Event) (s : AppState) :
  certSettings (after e s) =
  match e with
  | SailSelected v =>
      with_densitySuppression (density v (hasParachute (certSettings s)))
        (with_sail v (certSettings s))
  | ParachuteChanged checked =>
      with_densitySuppression (density (sail (certSettings s)) checked)
        (with_hasParachute checked (certSettings s))
  | RelaxationChanged v => with_relaxation v (certSettings s)
  | _ => certSettings s
  end.
Proof.
  unfold after. destruct e; simpl; try reflexivity.
  - unfold handleDeleteRoute. by destruct (Js.nonempty _).
  - unfold handleAnalyzePopulation. by destruct (Js.not _).
  - unfold handleDrawComplete. by destruct (_ || _).
Qed.

(** The categories the SAIL select ever offers. *)
Lemma sailOptions_categories (r : AppState) (v : string) :
  v ∈ sailOptions r -> v ∈ ["SAIL 2"; "SAIL 3"; "SAIL 4"; "SAIL 6"].
Proof.
  unfold sailOptions. destruct (hasParachute (certSettings r)); simpl.
  - intros Hin. repeat (apply elem_of_cons in Hin as [->|Hin]);
      [repeat constructor ..|].
    by apply elem_of_nil in Hin.
  - done.
Qed.

(** "SAIL 6" is on offer exactly while the parachute box is unchecked. *)
Lemma SAIL6_offered_iff (r : AppState) :
  offered r (SailSelected "SAIL 6") = true <-> hasParachute (certSettings r) = false.
Proof.
  unfold offered, sailOptions.
  destruct (hasParachute (certSettings r)); vm_compute; split; congruence.
Qed.

Lemma cert_consistent_initial : cert_consistent (certSettings initialState).
Proof. split; [repeat constructor | reflexivity]. Qed.

Lemma cert_consistent_step (s s' : AppState) :
  step s s' -> cert_consistent (certSettings s) -> cert_consistent (certSettings s').
Proof.
  intros [r e Hoff] [Hsail Hdens]. rewrite after_certSettings.
  destruct e; try (split; assumption).
  - (* the SAIL select *)
    simpl in Hoff. apply bool_decide_eq_true, sailOptions_categories in Hoff.
    split; [exact Hoff|]. simpl. by apply density_category.
  - (* the parachute checkbox *)
    split; [exact Hsail|]. simpl. by apply density_category.
Qed.

Lemma reachable_cert_consistent (s : AppState) :
  reachable s -> cert_consistent (certSettings s).
Proof.
  unfold reachable. revert s.
  apply (rtc_ind_r (fun s => cert_consistent (certSettings s))).
  - apply cert_consistent_initial.
  - intros s1 s2 _ Hstep IH. by eapply cert_consistent_step.
Qed.

(** C4. In every state the user can reach from the first render, the
    [densitySuppression] field is the value the applicable table holds for
    the current [sail] and [hasParachute], and 0 when the table has no entry
    for the pair. *)
Theorem densitySuppression_is_table_value (s : AppState) :
  reachable s ->
  densitySuppression (certSettings s)
  = Js.Num (tableValue (sail (certSettings s)) (hasParachute (certSettings s))).
Proof. intros Hreach. by destruct (reachable_cert_consistent s Hreach). Qed.

Lemma densitySuppression_is_table_value_witness :
  reachable (after (RelaxationChanged 600) (after (SailSelected "SAIL 4") initialState)) /\
  densitySuppression
    (certSettings (after (RelaxationChanged 600) (after (SailSelected "SAIL 4") initialState)))
  = Js.Num 50.
Proof.
  assert (Hreach :
    reachable (after (RelaxationChanged 600) (after (SailSelected "SAIL 4") initialState))).
  { replay. }
  split; [exact Hreach|].
  exact (densitySuppression_is_table_value _ Hreach).
Defined.

(** C2 (what the code does). The user selects "SAIL 6", which is on offer
    while the parachute box is unchecked, and then checks the box, which the
    page never disables: the state with [sail = "SAIL 6"] and
    [hasParachute = true] is reached, with [densitySuppression = 0]. *)
Theorem SAIL6_with_parachute_reachable :
  let s := after (ParachuteChanged true) (after (SailSelected "SAIL 6") initialState) in
  reachable s /\
  sail (certSettings s) = "SAIL 6" /\
  hasParachute (certSettings s) = true /\
  densitySuppression (certSettings s) = Js.Num 0.
Proof.
  simpl. split; [|by repeat split].
  replay.
Qed.

(** ** Routes: adding, deleting, analysing *)

(** C9, as the code has it. For every name, source and destination,
    [handleAddRoute] puts the route in the store under its name, closes
    the add-route modal and makes the name the selection state; when the
    name is not empty, the new route is thereby the selected one. Nothing
    is shown or logged, other routes and the other state cells are
    untouched. *)
Theorem handleAddRoute_adds_and_selects
    (s : AppState) (n : string) (src dst : L.LatLngTuple) :
  let s' := fst (dispatch (handleAddRoute n src dst) s) in
  routes s' !! n = Some {| name := n; source := src; destination := dst |} /\
  (forall other : string, other <> n -> routes s' !! other = routes s !! other) /\
  showAddRoute s' = false /\
  selectedRoute s' = n /\
  routes s' !! selectedRoute s'
  = Some {| name := n; source := src; destination := dst |} /\
  (n <> "" -> routeSelected s' {| name := n; source := src; destination := dst |}) /\
  isAnalyzing s' = isAnalyzing s /\
  certSettings s' = certSettings s /\
  snd (dispatch (handleAddRoute n src dst) s) = [].
Proof.
  simpl. unfold store_add. split; [apply lookup_insert_eq|].
  split; [intros other Hne; by rewrite lookup_insert_ne|].
  split; [reflexivity|]. split; [reflexivity|].
  split; [apply lookup_insert_eq|].
  split; [|by repeat split].
  intros Hne. split; [exact Hne|]. simpl. apply lookup_insert_eq.
Qed.

Lemma handleAddRoute_adds_and_selects_witness :
  "LHR-CDG" <> "" /\
  routeSelected oneRoute
    {| name := "LHR-CDG"; source := (51.47, -0.4543)%Q;
       destination := (49.0097, 2.5479)%Q |}.
Proof.
  assert (Hne : "LHR-CDG" <> "") by discriminate.
  split; [exact Hne|].
  destruct (handleAddRoute_adds_and_selects initialState "LHR-CDG"
              (51.47, -0.4543)%Q (49.0097, 2.5479)%Q)
    as (_ & _ & _ & _ & _ & Hselected & _).
  exact (Hselected Hne).
Defined.

(** C9, as stated, fails at the empty name. The route is stored, but the
    selection state is the empty string, which stands for no selection:
    the new route is not the selected one, the effect makes no call on the
    map, Delete is disabled and Analyze only shows the notice. *)
Lemma handleAddRoute_empty_name_not_selected :
  let route := {| name := ""; source := (51.47, -0.4543)%Q;
                  destination := (49.0097, 2.5479)%Q |} in
  let s' := fst (dispatch (handleAddRoute "" (51.47, -0.4543)%Q (49.0097, 2.5479)%Q)
                   initialState) in
  routes s' !! "" = Some route /\
  selectedRoute s' = "" /\
  ~ routeSelected s' route /\
  MapUpdater (selectedRoute s') (routes s') = [] /\
  offered s' DeleteClicked = false /\
  dispatch (handleAnalyzePopulation s') s' = (s', [Alerted "Please select a route first"]) /\
  ~ (forall (s : AppState) (n : string) (src dst : L.LatLngTuple),
       routeSelected (fst (dispatch (handleAddRoute n src dst) s))
         {| name := n; source := src; destination := dst |}).
Proof.
  simpl. split; [reflexivity|]. split; [reflexivity|].
  split; [by intros [Hne _]|]. split; [reflexivity|]. split; [reflexivity|].
  split; [reflexivity|].
  intros Hclaim.
  destruct (Hclaim initialState "" (51.47, -0.4543)%Q (49.0097, 2.5479)%Q) as [Hne _].
  by apply Hne.
Qed.

(** C5. When a route name is selected, [handleDeleteRoute] removes that
    name from the store, leaves the other routes as they are, and empties
    the selection. *)
Theorem handleDeleteRoute_clears_selection (s : AppState) :
  selectedRoute s <> "" ->
  let s' := fst (dispatch (handleDeleteRoute s) s) in
  routes s' !! selectedRoute s = None /\
  (forall other : string,
     other <> selectedRoute s -> routes s' !! other = routes s !! other) /\
  selectedRoute s' = "".
Proof.
  intros Hsel. unfold handleDeleteRoute, Js.nonempty.
  rewrite bool_decide_eq_false_2 by done. simpl. unfold store_delete.
  split; [apply lookup_delete_eq|].
  split; [|done]. intros other Hne. by rewrite lookup_delete_ne.
Qed.

Lemma handleDeleteRoute_clears_selection_witness :
  selectedRoute oneRoute <> "" /\
  routes (fst (dispatch (handleDeleteRoute oneRoute) oneRoute)) !! "LHR-CDG" = None /\
  selectedRoute (fst (dispatch (handleDeleteRoute oneRoute) oneRoute)) = "".
Proof.
  assert (Hsel : selectedRoute oneRoute <> "") by discriminate.
  split; [exact Hsel|].
  destruct (handleDeleteRoute_clears_selection oneRoute Hsel) as (Hgone & _ & Hempty).
  split; [exact Hgone | exact Hempty].
Defined.

(** C3. With no route selected, [handleAnalyzePopulation] shows the notice
    and changes no state cell, the analysing flag included; with a route
    selected it sets the analysing flag, changes nothing else and shows
    nothing. *)
Theorem handleAnalyzePopulation_guard (s : AppState) :
  (selectedRoute s = "" ->
   dispatch (handleAnalyzePopulation s) s = (s, [Alerted "Please select a route first"])) /\
  (selectedRoute s <> "" ->
   dispatch (handleAnalyzePopulation s) s
   = ({| selectedRoute := selectedRoute s; showAddRoute := showAddRoute s;
         isAnalyzing := true;
         routes := routes s; mapLayer := mapLayer s;
         flightParams := flightParams s; certSettings := certSettings s;
         trajectorySettings := trajectorySettings s |}, [])).
Proof.
  unfold handleAnalyzePopulation, Js.not, Js.nonempty. split; intros Hsel.
  - by rewrite bool_decide_eq_true_2.
  - by rewrite bool_decide_eq_false_2.
Qed.

Lemma handleAnalyzePopulation_guard_witness :
  (selectedRoute initialState = "" /\
   dispatch (handleAnalyzePopulation initialState) initialState
   = (initialState, [Alerted "Please select a route first"])) /\
  (selectedRoute oneRoute <> "" /\
   isAnalyzing (fst (dispatch (handleAnalyzePopulation oneRoute) oneRoute)) = true /\
   snd (dispatch (handleAnalyzePopulation oneRoute) oneRoute) = []).
Proof.
  split.
  - split; [reflexivity|].
    exact (proj1 (handleAnalyzePopulation_guard initialState) eq_refl).
  - assert (Hsel : selectedRoute oneRoute <> "") by discriminate.
    split; [exact Hsel|].
    rewrite (proj2 (handleAnalyzePopulation_guard oneRoute) Hsel).
    split; reflexivity.
Defined.

(** ** The drawing overlay *)

(** C6. While analysing, the completion of a polygon or rectangle gesture
    clears the analysing flag (and logs the coordinates of the shape). *)
Theorem handleDrawComplete_shape_clears_flag (s : AppState) (layer : L.Layer) :
  isAnalyzing s = true ->
  L.classOf layer = L.Polygon \/ L.classOf layer = L.Rectangle ->
  isAnalyzing (fst (dispatch (handleDrawComplete layer) s)) = false /\
  snd (dispatch (handleDrawComplete layer) s)
  = [Logged "Drawn shape coordinates:" (L.getLatLngs layer)].
Proof.
  intros _ Hclass. unfold handleDrawComplete, L.instanceof.
  by destruct Hclass as [-> | ->].
Qed.

Lemma handleDrawComplete_shape_clears_flag_witness :
  isAnalyzing analysing = true /\
  isAnalyzing (fst (dispatch (handleDrawComplete drawnRectangle) analysing)) = false.
Proof.
  split; [reflexivity|].
  exact (proj1 (handleDrawComplete_shape_clears_flag analysing drawnRectangle
                  eq_refl (or_intror eq_refl))).
Defined.

(** C10. [handleDrawComplete] clears the analysing flag for every completed
    layer and touches no other state cell; for a layer that is neither a
    polygon nor a rectangle it reads and logs no coordinates. *)
Theorem handleDrawComplete_always_clears_flag (s : AppState) (layer : L.Layer) :
  fst (dispatch (handleDrawComplete layer) s)
  = {| selectedRoute := selectedRoute s; showAddRoute := showAddRoute s;
       isAnalyzing := false;
       routes := routes s; mapLayer := mapLayer s;
       flightParams := flightParams s; certSettings := certSettings s;
       trajectorySettings := trajectorySettings s |} /\
  snd (dispatch (handleDrawComplete layer) s)
  = if isShape layer
    then [Logged "Drawn shape coordinates:" (L.getLatLngs layer)]
    else [].
Proof. unfold handleDrawComplete, isShape. by destruct (_ || _). Qed.

(** Markers, circles and polylines are not shapes in that sense. *)
Lemma isShape_false (layer : L.Layer) :
  isShape layer = false <->
  L.classOf layer ∈ [L.Marker; L.CircleMarker; L.Circle; L.Polyline].
Proof.
  unfold isShape, L.instanceof.
  destruct layer; simpl; (split; [intros Heq | intros Hin]);
    try reflexivity; try discriminate; try (repeat constructor; fail);
    repeat (apply elem_of_cons in Hin as [[=]|Hin]); by apply elem_of_nil in Hin.
Qed.

(** ** The map synchroniser *)

(** The box of two points holds both and lies within every box that
    does. *)
Lemma latLngBounds_pair_smallest (a b : L.LatLngTuple) :
  L.contains (L.latLngBounds [a; b]) (L.latLng a) /\
  L.contains (L.latLngBounds [a; b]) (L.latLng b) /\
  (forall other : L.LatLngBounds,
     L.contains other (L.latLng a) -> L.contains other (L.latLng b) ->
     L.within (L.latLngBounds [a; b]) other).
Proof.
  unfold L.latLngBounds. simpl. repeat split.
  - apply Q.le_min_r.
  - apply Q.le_max_r.
  - apply Q.le_min_r.
  - apply Q.le_max_r.
  - apply Q.le_min_l.
  - apply Q.le_max_l.
  - apply Q.le_min_l.
  - apply Q.le_max_l.
  - intros [|sw ne]; simpl; [done|].
    intros (Ha1 & Ha2 & Ha3 & Ha4) (Hb1 & Hb2 & Hb3 & Hb4). repeat split.
    + by apply Q.min_glb.
    + by apply Q.max_lub.
    + by apply Q.min_glb.
    + by apply Q.max_lub.
Qed.

(** C7. When the selection is a name that resolves to a stored route, the
    effect makes exactly one call on the map, a [fitBounds]: its box holds
    the source and the destination of the route and lies within every box
    that holds both, and its padding is 50 pixels at the top left and at
    the bottom right. *)
Theorem MapUpdater_fits_selected_route
    (sel : string) (rs : gmap string Route) (route : Route) :
  sel <> "" ->
  rs !! sel = Some route ->
  exists (box : L.LatLngBounds) (options : L.FitBoundsOptions),
    MapUpdater sel rs = [L.fitBounds box options] /\
    L.contains box (L.latLng (source route)) /\
    L.contains box (L.latLng (destination route)) /\
    (forall other : L.LatLngBounds,
       L.contains other (L.latLng (source route)) ->
       L.contains other (L.latLng (destination route)) ->
       L.within box other) /\
    L.paddingTopLeft options = (50%Q, 50%Q) /\
    L.paddingBottomRight options = (50%Q, 50%Q).
Proof.
  intros Hsel Hroute.
  exists (L.latLngBounds [source route; destination route]), {| L.padding := (50%Q, 50%Q) |}.
  split.
  - unfold MapUpdater. by rewrite (selectedRead_stored sel rs route Hsel Hroute).
  - destruct (latLngBounds_pair_smallest (source route) (destination route))
      as (Hsrc & Hdst & Hmin).
    split; [exact Hsrc|]. split; [exact Hdst|]. split; [exact Hmin|].
    split; reflexivity.
Qed.

Lemma MapUpdater_fits_selected_route_witness :
  "LHR-CDG" <> "" /\
  routes oneRoute !! "LHR-CDG"
  = Some {| name := "LHR-CDG";
            source := (51.47, -0.4543)%Q; destination := (49.0097, 2.5479)%Q |} /\
  exists (box : L.LatLngBounds) (options : L.FitBoundsOptions),
    MapUpdater "LHR-CDG" (routes oneRoute) = [L.fitBounds box options] /\
    L.contains box {| L.lat := 51.47; L.lng := -0.4543 |} /\
    L.contains box {| L.lat := 49.0097; L.lng := 2.5479 |}.
Proof.
  assert (Hsel : "LHR-CDG" <> "") by discriminate.
  assert (Hroute : routes oneRoute !! "LHR-CDG"
                   = Some {| name := "LHR-CDG"; source := (51.47, -0.4543)%Q;
                             destination := (49.0097, 2.5479)%Q |}) by reflexivity.
  split; [exact Hsel|]. split; [exact Hroute|].
  destruct (MapUpdater_fits_selected_route _ _ _ Hsel Hroute)
    as (box & options & Hcall & Hsrc & Hdst & _).
  exists box, options.
  split; [exact Hcall|]. split; [exact Hsrc | exact Hdst].
Defined.




(** * Further properties of the page *)

(** ** Routes and selection along the user's steps *)

(** What each event does to the selection and to the stored routes. *)
Lemma after_selection_routes (e : Event) (s : AppState) :
  selectedRoute (after e s) =
    match e with
    | RouteSelected v => v
    | DeleteClicked => if Js.nonempty (selectedRoute s) then "" else selectedRoute s
    | ModalSubmitted n _ _ => n
    | _ => selectedRoute s
    end /\
  routes (after e s) =
    match e with
    | DeleteClicked =>
        if Js.nonempty (selectedRoute s)
        then store_delete (selectedRoute s) (routes s)
        else routes s
    | ModalSubmitted n src dst => store_add n src dst (routes s)
    | _ => routes s
    end.
Proof.
  unfold after. destruct e; simpl; try (split; reflexivity).
  - unfold handleDeleteRoute. by destruct (Js.nonempty _).
  - unfold handleAnalyzePopulation. by destruct (Js.not _).
  - unfold handleDrawComplete. by destruct (_ || _).
Qed.

Lemma selection_resolves_step (s s' : AppState) :
  step s s' -> selection_resolves s -> selection_resolves s'.
Proof.
  intros [r e Hoff] Hinv. unfold selection_resolves in *.
  destruct (after_selection_routes e r) as [-> ->].
  destruct e; try exact Hinv.
  - (* the route select *)
    simpl in Hoff. apply orb_true_iff in Hoff as [Hoff|Hoff];
      apply bool_decide_eq_true in Hoff; [by left | by right].
  - (* Delete *)
    destruct (Js.nonempty (selectedRoute r)); [by left | exact Hinv].
  - (* the add-route modal *)
    right. unfold store_add. rewrite lookup_insert_eq. by eexists.
Qed.

Lemma reachable_selection_resolves (s : AppState) :
  reachable s -> selection_resolves s.
Proof.
  unfold reachable. revert s. apply (rtc_ind_r selection_resolves).
  - by left.
  - intros s1 s2 _ Hstep IH. by eapply selection_resolves_step.
Qed.

(** X1. The form fields, the layer switch, the Add Route button, the
    modal's close button and the analysis tools never change the selection
    or the stored routes: only the route select, Delete and the modal's
    submission do. *)
Theorem selection_and_routes_frame (e : Event) (s : AppState) :
  touchesRoutes e = false ->
  selectedRoute (after e s) = selectedRoute s /\ routes (after e s) = routes s.
Proof.
  intros Hother. destruct (after_selection_routes e s) as [-> ->].
  by destruct e.
Qed.

Lemma selection_and_routes_frame_witness :
  touchesRoutes AnalyzeClicked = false /\
  selectedRoute (after AnalyzeClicked oneRoute) = selectedRoute oneRoute /\
  routes (after AnalyzeClicked oneRoute) = routes oneRoute.
Proof.
  split; [reflexivity|].
  exact (selection_and_routes_frame AnalyzeClicked oneRoute eq_refl).
Defined.

(** X2. In every state the user can reach, the selection is empty or names
    a route of the store (as modelled from the route-store contract): the
    route select never shows a name that is gone. *)
Theorem selection_never_dangles (s : AppState) :
  reachable s ->
  selectedRoute s = "" \/ is_Some (routes s !! selectedRoute s).
Proof. apply reachable_selection_resolves. Qed.

Lemma selection_never_dangles_witness :
  reachable (after (ModalSubmitted "LHR-CDG" (51.47, -0.4543)%Q (49.0097, 2.5479)%Q)
               initialState) /\
  (selectedRoute oneRoute = "" \/ is_Some (routes oneRoute !! selectedRoute oneRoute)).
Proof.
  assert (Hreach : reachable (after (ModalSubmitted "LHR-CDG" (51.47, -0.4543)%Q
                                        (49.0097, 2.5479)%Q) initialState)) by replay.
  split; [exact Hreach|].
  exact (selection_never_dangles _ Hreach).
Defined.

(** X3. With no route selected, [handleDeleteRoute] does nothing: no call
    reaches the store, and the state is returned as it was. *)
Theorem handleDeleteRoute_without_selection (s : AppState) :
  selectedRoute s = "" ->
  handleDeleteRoute s = [] /\ dispatch (handleDeleteRoute s) s = (s, []).
Proof.
  intros Hsel. unfold handleDeleteRoute.
  by rewrite (proj2 (nonempty_false _) Hsel).
Qed.

Lemma handleDeleteRoute_without_selection_witness :
  selectedRoute initialState = "" /\
  dispatch (handleDeleteRoute initialState) initialState = (initialState, []).
Proof.
  split; [reflexivity|].
  exact (proj2 (handleDeleteRoute_without_selection initialState eq_refl)).
Defined.

(** X4. A route stored under the empty name stays: no control of the page
    removes it, because Delete acts on the selection and the empty
    selection counts as none. *)
Theorem empty_named_route_stays (s : AppState) (e : Event) :
  is_Some (routes s !! "") ->
  is_Some (routes (after e s) !! "").
Proof.
  intros Hsome. destruct (after_selection_routes e s) as [_ ->].
  destruct e; try exact Hsome.
  - destruct (Js.nonempty (selectedRoute s)) eqn:Hsel; [|exact Hsome].
    apply nonempty_true in Hsel. unfold store_delete.
    by rewrite lookup_delete_ne.
  - unfold store_add.
    match goal with |- context [ <[ ?n := _ ]> _ ] => destruct (decide (n = "")) as [->|Hne] end.
    + rewrite lookup_insert_eq. by eexists.
    + by rewrite lookup_insert_ne.
Qed.

(** A state with a route stored under the empty name. *)
Lemma empty_named_route_stays_witness :
  let s := after (ModalSubmitted "" (51.47, -0.4543)%Q (49.0097, 2.5479)%Q) initialState in
  is_Some (routes s !! "") /\
  offered s DeleteClicked = false /\
  is_Some (routes (after DeleteClicked s) !! "").
Proof.
  simpl.
  assert (Hsome : is_Some
    (routes (after (ModalSubmitted "" (51.47, -0.4543)%Q (49.0097, 2.5479)%Q) initialState)
       !! "")) by (by eexists).
  split; [exact Hsome|]. split; [reflexivity|].
  exact (empty_named_route_stays _ DeleteClicked Hsome).
Defined.

(** X5. After the add-route modal submits, the effect fits the map to the
    new route's two endpoints when the name is non-empty, and makes no call
    when the name is empty, although the route is stored. *)
Theorem MapUpdater_after_add
    (s : AppState) (n : string) (src dst : L.LatLngTuple) :
  let s' := after (ModalSubmitted n src dst) s in
  MapUpdater (selectedRoute s') (routes s') =
    if Js.nonempty n
    then [ L.fitBounds (L.latLngBounds [src; dst]) {| L.padding := (50%Q, 50%Q) |} ]
    else [].
Proof.
  simpl. unfold after, MapUpdater, selectedRead, readRoute. simpl.
  destruct (Js.nonempty n); [|reflexivity].
  unfold store_add. by rewrite lookup_insert_eq.
Qed.

(** X6. Picking any non-empty entry the route select offers makes the
    effect fit the map to that route, and the page draw its markers and
    line. *)
Theorem MapUpdater_after_select (s : AppState) (v : string) :
  offered s (RouteSelected v) = true ->
  v <> "" ->
  exists route : Route,
    routes s !! v = Some route /\
    MapUpdater (selectedRoute (after (RouteSelected v) s)) (routes (after (RouteSelected v) s))
    = [ L.fitBounds (L.latLngBounds [source route; destination route])
          {| L.padding := (50%Q, 50%Q) |} ] /\
    routeOverlay (selectedRoute (after (RouteSelected v) s))
      (routes (after (RouteSelected v) s))
    = Rendered
        [ ZoomAwareMarker (source route) "Take-off Location";
          ZoomAwareMarker (destination route) "Landing Location";
          Polyline [source route; destination route] ].
Proof.
  intros Hoff Hne. simpl in Hoff.
  apply orb_true_iff in Hoff as [Hoff|Hoff]; apply bool_decide_eq_true in Hoff; [done|].
  destruct Hoff as [route Hroute]. exists route. split; [exact Hroute|].
  unfold after, MapUpdater, routeOverlay. simpl.
  by rewrite (selectedRead_stored v (routes s) route Hne Hroute).
Qed.

Lemma MapUpdater_after_select_witness :
  offered oneRoute (RouteSelected "LHR-CDG") = true /\
  "LHR-CDG" <> "" /\
  exists route : Route,
    routes oneRoute !! "LHR-CDG" = Some route /\
    MapUpdater (selectedRoute (after (RouteSelected "LHR-CDG") oneRoute))
      (routes (after (RouteSelected "LHR-CDG") oneRoute))
    = [ L.fitBounds (L.latLngBounds [source route; destination route])
          {| L.padding := (50%Q, 50%Q) |} ].
Proof.
  assert (Hoff : offered oneRoute (RouteSelected "LHR-CDG") = true) by reflexivity.
  assert (Hne : "LHR-CDG" <> "") by discriminate.
  split; [exact Hoff|]. split; [exact Hne|].
  destruct (MapUpdater_after_select oneRoute "LHR-CDG" Hoff Hne)
    as (route & Hroute & Hfit & _).
  exists route. split; [exact Hroute | exact Hfit].
Defined.



(** X8. Adding a route under a fresh, non-empty name and deleting it right
    away gives back the store as it was, with nothing selected. *)
Theorem add_then_delete_restores
    (s : AppState) (n : string) (src dst : L.LatLngTuple) :
  n <> "" ->
  routes s !! n = None ->
  let s' := after DeleteClicked (after (ModalSubmitted n src dst) s) in
  offered (after (ModalSubmitted n src dst) s) DeleteClicked = true /\
  routes s' = routes s /\
  selectedRoute s' = "".
Proof.
  intros Hne Hfresh. simpl.
  assert (Hsel : Js.nonempty n = true) by by apply nonempty_true.
  split.
  - unfold offered, Js.not, after. simpl. by rewrite Hsel.
  - unfold after at 1 3. unfold handler, handleDeleteRoute.
    replace (selectedRoute (after (ModalSubmitted n src dst) s)) with n by reflexivity.
    rewrite Hsel. simpl. unfold store_delete, store_add. split; [|reflexivity].
    rewrite delete_insert_eq. by apply delete_id.
Qed.

Lemma add_then_delete_restores_witness :
  "LHR-CDG" <> "" /\
  routes initialState !! "LHR-CDG" = None /\
  routes (after DeleteClicked
            (after (ModalSubmitted "LHR-CDG" (51.47, -0.4543)%Q (49.0097, 2.5479)%Q)
               initialState))
  = routes initialState.
Proof.
  assert (Hne : "LHR-CDG" <> "") by discriminate.
  assert (Hfresh : routes initialState !! "LHR-CDG" = None) by reflexivity.
  split; [exact Hne|]. split; [exact Hfresh|].
  exact (proj1 (proj2 (add_then_delete_restores initialState "LHR-CDG"
                         (51.47, -0.4543)%Q (49.0097, 2.5479)%Q Hne Hfresh))).
Defined.

(** ** The analysis tools along the user's steps *)

(** X9. No control the page offers ever shows the notice: the Analyze
    button is disabled exactly when [handleAnalyzePopulation] would take its
    alerting branch, and no other handler alerts. *)
Theorem offered_event_never_alerts (s : AppState) (e : Event) :
  offered s e = true ->
  forallb (fun o => negb (isAlert o)) (snd (dispatch (handler s e) s)) = true.
Proof.
  intros Hoff. destruct e; simpl in *; try reflexivity.
  - unfold handleDeleteRoute. by destruct (Js.nonempty _).
  - unfold handleAnalyzePopulation. apply negb_true_iff in Hoff. by rewrite Hoff.
  - unfold handleDrawComplete. by destruct (_ || _).
Qed.

Lemma offered_event_never_alerts_witness :
  offered oneRoute AnalyzeClicked = true /\
  forallb (fun o => negb (isAlert o))
    (snd (dispatch (handler oneRoute AnalyzeClicked) oneRoute)) = true.
Proof.
  assert (Hoff : offered oneRoute AnalyzeClicked = true) by reflexivity.
  split; [exact Hoff|].
  exact (offered_event_never_alerts oneRoute AnalyzeClicked Hoff).
Defined.

(** X10. The analysing flag changes through two controls only: Analyze
    sets it when a route is selected (and leaves it otherwise), a
    completed draw clears it. In particular deleting or deselecting the
    route while analysing leaves the drawing tools on the map. *)
Theorem isAnalyzing_frame (e : Event) (s : AppState) :
  isAnalyzing (after e s) =
  match e with
  | AnalyzeClicked => Js.nonempty (selectedRoute s) || isAnalyzing s
  | DrawCompleted _ => false
  | _ => isAnalyzing s
  end.
Proof.
  unfold after. destruct e; simpl; try reflexivity.
  - unfold handleDeleteRoute. by destruct (Js.nonempty _).
  - unfold handleAnalyzePopulation, Js.not. by destruct (Js.nonempty _).
  - unfold handleDrawComplete. by destruct (_ || _).
Qed.

(** X11. From a state that is not analysing, clicking Analyze and then
    completing a draw of any layer brings back the very same state. *)
Theorem analyze_then_draw_restores (s : AppState) (layer : L.Layer) :
  isAnalyzing s = false ->
  after (DrawCompleted layer) (after AnalyzeClicked s) = s.
Proof.
  intros Hidle. destruct s as [sel modal analysing0 rs ml fp cs ts].
  simpl in Hidle. subst analysing0.
  unfold after. simpl. unfold handleAnalyzePopulation, handleDrawComplete. simpl.
  destruct (Js.not sel); by destruct (_ || _).
Qed.

Lemma analyze_then_draw_restores_witness :
  isAnalyzing oneRoute = false /\
  after (DrawCompleted drawnRectangle) (after AnalyzeClicked oneRoute) = oneRoute.
Proof.
  split; [reflexivity|].
  exact (analyze_then_draw_restores oneRoute drawnRectangle eq_refl).
Defined.

(** ** The certification settings, further *)

(** X12. The excluded pair ("SAIL 6" with a parachute) is entered through
    one control only: the parachute checkbox being checked while "SAIL 6"
    is selected. The SAIL select never leads into it. *)
Theorem excluded_only_through_checkbox (s : AppState) (e : Event) :
  offered s e = true ->
  ~ excluded (certSettings s) ->
  excluded (certSettings (after e s)) ->
  e = ParachuteChanged true /\ sail (certSettings s) = "SAIL 6".
Proof.
  intros Hoff Hbefore Hafter. rewrite after_certSettings in Hafter.
  destruct e; try (by destruct (Hbefore Hafter)).
  - (* the SAIL select *)
    destruct Hafter as [Hsail Hpar]. simpl in Hsail, Hpar. subst value.
    apply SAIL6_offered_iff in Hoff. congruence.
  - (* the parachute checkbox *)
    destruct Hafter as [Hsail Hpar]. simpl in Hsail, Hpar. by subst checked.
Qed.

Lemma excluded_only_through_checkbox_witness :
  let s := after (SailSelected "SAIL 6") initialState in
  offered s (ParachuteChanged true) = true /\
  ~ excluded (certSettings s) /\
  excluded (certSettings (after (ParachuteChanged true) s)) /\
  sail (certSettings s) = "SAIL 6".
Proof.
  simpl.
  assert (Hoff : offered (after (SailSelected "SAIL 6") initialState)
                   (ParachuteChanged true) = true) by reflexivity.
  assert (Hbefore : ~ excluded (certSettings (after (SailSelected "SAIL 6") initialState))).
  { intros [_ Hpar]. discriminate Hpar. }
  assert (Hafter : excluded (certSettings
            (after (ParachuteChanged true) (after (SailSelected "SAIL 6") initialState)))).
  { split; reflexivity. }
  split; [exact Hoff|]. split; [exact Hbefore|]. split; [exact Hafter|].
  exact (proj2 (excluded_only_through_checkbox _ _ Hoff Hbefore Hafter)).
Defined.

(** X13. In every state the user can reach, the category is one of the
    four the select knows, and the density field holds a number, one of 0,
    5, 50, 500 and 5000: through the page, no inherited object ever gets
    there. *)
Theorem reachable_density_values (s : AppState) :
  reachable s ->
  sail (certSettings s) ∈ ["SAIL 2"; "SAIL 3"; "SAIL 4"; "SAIL 6"] /\
  densitySuppression (certSettings s)
  ∈ [Js.Num 0; Js.Num 5; Js.Num 50; Js.Num 500; Js.Num 5000].
Proof.
  intros Hreach. destruct (reachable_cert_consistent s Hreach) as [Hsail Hdens].
  split; [exact Hsail|]. rewrite Hdens.
  repeat (apply elem_of_cons in Hsail as [->|Hsail]);
    [destruct (hasParachute (certSettings s)); vm_compute; repeat constructor ..|].
  by apply elem_of_nil in Hsail.
Qed.

Lemma reachable_density_values_witness :
  reachable (after (ParachuteChanged true) (after (SailSelected "SAIL 4") initialState)) /\
  densitySuppression
    (certSettings (after (ParachuteChanged true) (after (SailSelected "SAIL 4") initialState)))
  ∈ [Js.Num 0; Js.Num 5; Js.Num 50; Js.Num 500; Js.Num 5000].
Proof.
  assert (Hreach : reachable (after (ParachuteChanged true)
                                (after (SailSelected "SAIL 4") initialState))) by replay.
  split; [exact Hreach|].
  exact (proj2 (reachable_density_values _ Hreach)).
Defined.

(** X14. Each editable certification field changes through its own control
    only: the category through the SAIL select, the parachute flag through
    the checkbox, the controlled area through its input. The
    controlled-area input, though it writes a whole new settings object,
    carries the density field over unchanged. *)
Theorem certSettings_fields_frame (e : Event) (s : AppState) :
  sail (certSettings (after e s)) =
    match e with SailSelected v => v | _ => sail (certSettings s) end /\
  hasParachute (certSettings (after e s)) =
    match e with
    | ParachuteChanged checked => checked
    | _ => hasParachute (certSettings s)
    end /\
  relaxation (certSettings (after e s)) =
    match e with RelaxationChanged v => v | _ => relaxation (certSettings s) end /\
  densitySuppression (certSettings (after e s)) =
    match e with
    | SailSelected v => density v (hasParachute (certSettings s))
    | ParachuteChanged checked => density (sail (certSettings s)) checked
    | _ => densitySuppression (certSettings s)
    end.
Proof. rewrite after_certSettings. by destruct e. Qed.

(** ** The numeric forms *)

(** X15. A flight-parameter input writes its own field and nothing else:
    reading the field back gives the number typed, the three other
    parameters and every other state cell are as before. *)
Theorem flightParam_write_read (s : AppState) (f g : FlightField) (v : Q) :
  let s' := after (FlightParamChanged f v) s in
  flightField g (flightParams s')
  = (if bool_decide (g = f) then v else flightField g (flightParams s)) /\
  selectedRoute s' = selectedRoute s /\
  showAddRoute s' = showAddRoute s /\
  isAnalyzing s' = isAnalyzing s /\
  routes s' = routes s /\
  mapLayer s' = mapLayer s /\
  certSettings s' = certSettings s /\
  trajectorySettings s' = trajectorySettings s.
Proof. simpl. split; [by destruct f, g | by repeat split]. Qed.

(** X16. A trajectory input writes its own field and nothing else: reading
    the field back gives the number typed, the four other settings and
    every other state cell are as before. *)
Theorem trajectory_write_read (s : AppState) (f g : TrajectoryField) (v : Q) :
  let s' := after (TrajectoryChanged f v) s in
  trajectoryField g (trajectorySettings s')
  = (if bool_decide (g = f) then v else trajectoryField g (trajectorySettings s)) /\
  selectedRoute s' = selectedRoute s /\
  showAddRoute s' = showAddRoute s /\
  isAnalyzing s' = isAnalyzing s /\
  routes s' = routes s /\
  mapLayer s' = mapLayer s /\
  flightParams s' = flightParams s /\
  certSettings s' = certSettings s.
Proof. simpl. split; [by destruct f, g | by repeat split]. Qed.

(** ** The base map *)

(** X17. Whatever the layer switch is set to, the map container holds
    exactly one tile layer, and the three settings give three different
    ones. *)
Theorem tileLayers_one_per_setting :
  (forall l : MapLayer, length (tileLayers l) = 1) /\
  (forall l1 l2 : MapLayer, tileLayers l1 = tileLayers l2 -> l1 = l2).
Proof.
  split.
  - by intros [].
  - by intros [] [].
Qed.

(** ** Controls and state, together *)

(** X18. In every state the user can reach, the value the SAIL select is
    given is one of the options it renders, unless the state is the
    excluded pair: there the select holds "SAIL 6" while offering only
    the three other categories. *)
Theorem sail_among_options_iff (s : AppState) :
  reachable s ->
  sail (certSettings s) ∈ sailOptions s <-> ~ excluded (certSettings s).
Proof.
  intros Hreach. destruct (reachable_cert_consistent s Hreach) as [Hsail _].
  unfold sailOptions, excluded.
  destruct (hasParachute (certSettings s)); simpl.
  - split.
    + intros Hin [Heq _]. rewrite Heq in Hin.
      repeat (apply elem_of_cons in Hin as [[=]|Hin]). by apply elem_of_nil in Hin.
    + intros Hnot.
      repeat (apply elem_of_cons in Hsail as [Heq|Hsail]);
        [rewrite Heq; repeat constructor ..
        | by destruct Hnot | by apply elem_of_nil in Hsail].
  - split; [by intros _ [_ [=]] | intros _; exact Hsail].
Qed.

Lemma sail_among_options_iff_witness :
  let s := after (ParachuteChanged true) (after (SailSelected "SAIL 6") initialState) in
  reachable s /\ excluded (certSettings s) /\ ~ sail (certSettings s) ∈ sailOptions s.
Proof.
  simpl.
  assert (Hreach : reachable (after (ParachuteChanged true)
                                (after (SailSelected "SAIL 6") initialState))) by replay.
  assert (Hexcl : excluded (certSettings (after (ParachuteChanged true)
                                (after (SailSelected "SAIL 6") initialState)))).
  { split; reflexivity. }
  split; [exact Hreach|]. split; [exact Hexcl|].
  intros Hin. exact (proj1 (sail_among_options_iff _ Hreach) Hin Hexcl).
Defined.

(** X19. In every state the user can reach, an enabled Delete button acts
    on a route that exists: the click removes it from the store (as
    modelled from the route-store contract), after which the page draws no
    route and the effect makes no call on the map. *)
Theorem delete_removes_drawn_route (s : AppState) :
  reachable s ->
  offered s DeleteClicked = true ->
  exists route : Route,
    routes s !! selectedRoute s = Some route /\
    routes (after DeleteClicked s) !! selectedRoute s = None /\
    routeOverlay (selectedRoute (after DeleteClicked s)) (routes (after DeleteClicked s))
    = Rendered [] /\
    MapUpdater (selectedRoute (after DeleteClicked s)) (routes (after DeleteClicked s)) = [].
Proof.
  intros Hreach Hoff. simpl in Hoff. unfold Js.not in Hoff.
  rewrite negb_involutive in Hoff.
  destruct (reachable_selection_resolves s Hreach) as [Hempty | [route Hroute]].
  { apply nonempty_true in Hoff. by destruct Hoff. }
  exists route. split; [exact Hroute|].
  destruct (after_selection_routes DeleteClicked s) as [-> ->].
  rewrite Hoff. unfold store_delete. split; [apply lookup_delete_eq|].
  split; reflexivity.
Qed.

Lemma delete_removes_drawn_route_witness :
  reachable (after (ModalSubmitted "LHR-CDG" (51.47, -0.4543)%Q (49.0097, 2.5479)%Q)
               initialState) /\
  offered oneRoute DeleteClicked = true /\
  routes (after DeleteClicked oneRoute) !! "LHR-CDG" = None.
Proof.
  assert (Hreach : reachable (after (ModalSubmitted "LHR-CDG" (51.47, -0.4543)%Q
                                        (49.0097, 2.5479)%Q) initialState)) by replay.
  assert (Hoff : offered oneRoute DeleteClicked = true) by reflexivity.
  split; [exact Hreach|]. split; [exact Hoff|].
  destruct (delete_removes_drawn_route oneRoute Hreach Hoff) as (route & _ & Hgone & _).
  exact Hgone.
Defined.

(** X20. In every state the user can reach, the selection is never read off
    [Object.prototype]: the route overlay renders without throwing, and the
    effect never hands the map an empty box. *)
Theorem reachable_read_is_own (s : AppState) :
  reachable s ->
  (exists elements : list Overlay,
     routeOverlay (selectedRoute s) (routes s) = Rendered elements) /\
  (forall options : L.FitBoundsOptions,
     MapUpdater (selectedRoute s) (routes s) <> [ L.fitBounds L.Empty options ]).
Proof.
  intros Hreach. unfold routeOverlay, MapUpdater.
  destruct (reachable_selection_resolves s Hreach) as [Hempty | [route Hroute]].
  - rewrite Hempty, selectedRead_empty. split; [by eexists | done].
  - destruct (decide (selectedRoute s = "")) as [Hempty | Hne].
    + rewrite Hempty, selectedRead_empty. split; [by eexists | done].
    + rewrite (selectedRead_stored _ _ route Hne Hroute). split; [by eexists|].
      intros options. simpl. discriminate.
Qed.

Lemma reachable_read_is_own_witness :
  reachable (after (ModalSubmitted "LHR-CDG" (51.47, -0.4543)%Q (49.0097, 2.5479)%Q)
               initialState) /\
  exists elements : list Overlay,
    routeOverlay (selectedRoute oneRoute) (routes oneRoute) = Rendered elements.
Proof.
  assert (Hreach : reachable (after (ModalSubmitted "LHR-CDG" (51.47, -0.4543)%Q
                                        (49.0097, 2.5479)%Q) initialState)) by replay.
  split; [exact Hreach|].
  exact (proj1 (reachable_read_is_own _ Hreach)).
Defined.
